(** * The [hub create] command (commands/create.go)

    A shallow embedding of [create]: the command resolves the requested
    repository name, looks the repository up on the host, reuses or creates
    it, and wires the local [origin] remote to it.

    Every call [create] makes to a collaborator (git, the API client, the
    host configuration, the terminal) is recorded as an [Event]; its answer
    comes from an [Env].  [utils.Check] on a non-nil error ends the process,
    modelled by the [Exit] outcome. *)

From Stdlib Require Import String Ascii List Bool Lia.
Import ListNotations.
Open Scope string_scope.

(** ** Data *)

(** A Go [(value, error)] pair: either a value or a non-nil error. *)
Inductive res (A : Type) : Type :=
| Ok (a : A)
| Err (e : string).
Arguments Ok {A} a.
Arguments Err {A} e.

(** [github.Project]. *)
Record Project : Type := mkProject {
  Owner : string;
  Name : string;
  Host : string
}.

(** [github.Repository], the fields [create] reads. *)
Record Repository : Type := mkRepository {
  FullName : string;
  Private : bool
}.

(** [github.Host], the fields [create] reads. *)
Record HostConfig : Type := mkHostConfig {
  HostHost : string;
  User : string
}.

(** [github.Remote]: its name, its push URL and the result of
    [originRemote.Project()] (the URL decomposed into a project). *)
Record Remote : Type := mkRemote {
  RemoteName : string;
  PushURL : string;
  RemoteProject : res Project
}.

(** The command-line flags of [hub create]. *)
Record Flags : Type := mkFlags {
  flagCreatePrivate : bool;
  flagCreateBrowse : bool;
  flagCreateCopy : bool;
  flagCreateDescription : string;
  flagCreateHomepage : string
}.

(** The parts of [*Args] that [create] reads: the positional parameters and
    the global dry-run switch [args.Noop]. *)
Record Args : Type := mkArgs {
  Params : list string;
  Noop : bool
}.

(** The answers of the collaborators. [SanitizeProjectName] is a pure string
    transform of the [github] package, not part of this file. *)
Record Env : Type := mkEnv {
  gitDir : res string;                     (* git.Dir() *)
  gitWorkdirName : res string;             (* git.WorkdirName() *)
  SanitizeProjectName : string -> string;  (* github.SanitizeProjectName *)
  DefaultHost : res HostConfig;            (* config.DefaultHost() *)
  ghRepository : Project -> res Repository;  (* gh.Repository(project) *)
  ghCreateRepository :                     (* gh.CreateRepository(...) *)
    Project -> string -> string -> bool -> res Repository;
  LocalRepo : res unit;                    (* github.LocalRepo() *)
  RemoteByName : string -> res Remote;     (* localRepo.RemoteByName(name) *)
  ConfigFind : string -> option HostConfig (* CurrentConfig().Find(host) *)
}.

(** What [create] does to the outside world, in order. *)
Inductive Event : Type :=
| CallGitDir
| CallWorkdirName
| CallDefaultHost
| CallRepository (p : Project)
| CallCreateRepository (p : Project) (description homepage : string)
    (private : bool)
| CallLocalRepo
| CallRemoteByName (name : string)
| Errorln (msg : string)                    (* ui.Errorln / ui.Errorf *)
| Before (argv : list string)               (* args.Before: queued command *)
| NoForward                                 (* args.NoForward() *)
| BrowseOrCopy (url : string) (browse copy : bool). (* printBrowseOrCopy *)

(** ** The effect monad: a trace of events and a possible process exit *)

Inductive outcome (A : Type) : Type :=
| Return (a : A)
| Exit (msg : string).
Arguments Return {A} a.
Arguments Exit {A} msg.

Definition M (A : Type) : Type := (list Event * outcome A)%type.

Definition ret {A} (a : A) : M A := ([], Return a).

Definition bind {A B} (m : M A) (f : A -> M B) : M B :=
  match m with
  | (t, Return a) => let (t', o) := f a in (app t t', o)
  | (t, Exit msg) => (t, Exit msg)
  end.

Notation "x <- m ;; k" := (bind m (fun x => k))
  (at level 61, m at next level, right associativity).
Notation "' p <- m ;; k" := (bind m (fun x => match x with p => k end))
  (at level 61, p pattern, m at next level, right associativity).

(** A collaborator call: the event is recorded, the answer returned. *)
Definition call {A} (e : Event) (answer : A) : M A := ([e], Return answer).


Definition res_err {A} (r : res A) : option string :=
  match r with Ok _ => None | Err e => Some e end.

(** The process exits with [msg] ([utils.Check] of a non-nil error). *)
Definition Fatal {A} (msg : string) : M A := ([], Exit msg).

(** [utils.Check(err)]: a non-nil error is printed and the process exits. *)
Definition Check (err : option string) : M unit :=
  match err with
  | None => ret tt
  | Some msg => Fatal msg
  end.

(** ** Strings *)

(** [strings.Contains(s, string(c))]. *)
Fixpoint Contains (s : string) (c : ascii) : bool :=
  match s with
  | EmptyString => false
  | String x rest => Ascii.eqb x c || Contains rest c
  end.

(** The text before and after the first occurrence of [c], if any. *)
Fixpoint splitFirst (c : ascii) (s : string) : option (string * string) :=
  match s with
  | EmptyString => None
  | String x rest =>
      if Ascii.eqb x c then Some (EmptyString, rest)
      else match splitFirst c rest with
           | Some (a, b) => Some (String x a, b)
           | None => None
           end
  end.

(** [strings.SplitN(s, string(c), 2)]. *)
Definition SplitN2 (s : string) (c : ascii) : list string :=
  match splitFirst c s with
  | Some (a, b) => [a; b]
  | None => [s]
  end.

(** [strings.ToLower] on ASCII text. *)
Definition lower (c : ascii) : ascii :=
  let n := nat_of_ascii c in
  if Nat.leb 65 n && Nat.leb n 90 then ascii_of_nat (Nat.add n 32) else c.

Fixpoint ToLower (s : string) : string :=
  match s with
  | EmptyString => EmptyString
  | String c rest => String (lower c) (ToLower rest)
  end.

(** The regular expression [^[^-]]: a first character that is not ['-']. *)
Definition MatchNotDash (s : string) : bool :=
  match s with
  | EmptyString => false
  | String c _ => negb (Ascii.eqb c "-")
  end.

(** The double quote character. *)
Definition dq : string := String "034" EmptyString.

(** ** The [github] package, as far as [create] uses it *)

(** Modelled from the spec: [github.NewProject(owner, name, host)]
    (github/project.go, not part of this file).  An owner that holds a ['/']
    is split at its first ['/'] (the rest is the name when the name argument
    is empty); otherwise a name that holds a ['/'] is split at its first
    ['/'] (the part before is the owner when the owner argument is empty).
    An owner still empty is the user of the host configured for [host]
    ([CurrentConfig().Find(host)]), when there is one. *)
Definition NewProject (find : string -> option HostConfig)
  (owner name host : string) : Project :=
  let '(owner, name) :=
    if Contains owner "/" then
      let result := SplitN2 owner "/" in
      (nth 0 result "", if String.eqb name "" then nth 1 result "" else name)
    else if Contains name "/" then
      let result := SplitN2 name "/" in
      (if String.eqb owner "" then nth 0 result "" else owner, nth 1 result "")
    else (owner, name) in
  let owner :=
    if String.eqb owner "" then
      match find host with Some h => User h | None => owner end
    else owner in
  mkProject owner name host.

(** Modelled from the spec: [Project.SameAs] (github/project.go, not part of
    this file).  Spec 3: owners, names and hosts equal up to case (an empty
    owner has already been filled in by [NewProject]). *)
Definition SameAs (p other : Project) : bool :=
  String.eqb (ToLower (Owner p)) (ToLower (Owner other)) &&
  String.eqb (ToLower (Name p)) (ToLower (Name other)) &&
  String.eqb (ToLower (Host p)) (ToLower (Host other)).

(** Modelled from the spec: [Project.GitURL("", "", true)] (github/project.go,
    not part of this file), the SSH form the command's help text shows:
    [git@github.com:sinatra/recipes.git]. *)
Definition GitURL (p : Project) : string :=
  "git@" ++ Host p ++ ":" ++ Owner p ++ "/" ++ Name p ++ ".git".

(** Modelled from the spec: [Project.WebURL("", "", "")] (github/project.go,
    not part of this file), the web page of the project. *)
Definition WebURL (p : Project) : string :=
  "https://" ++ Host p ++ "/" ++ Owner p ++ "/" ++ Name p.

(** Modelled from the spec: [github.FormatError(action, err)]
    (github/client.go, not part of this file).  It rewrites the errors of API
    responses alone; every other error, such as the configuration errors
    [create] passes it, comes back as it is. *)
Definition FormatError (action err : string) : string := err.

(** ** [create] *)

Definition notInGitRepository : string :=
  "'create' must be run from inside a git repository".

Definition invalidArgument (arg : string) : string :=
  "invalid argument: " ++ arg.

Definition alreadyPublic (fullName : string) : string :=
  "Repository '" ++ fullName ++ "' already exists and is public".

Definition existingDetected : string := "Existing repository detected".

Definition remoteExists (r : Remote) : string :=
  "A git remote named " ++ dq ++ RemoteName r ++ dq ++
  " already exists and is set to push to '" ++ PushURL r ++ "'.\n".

(** Lines 103-110: the owner is split off a name that holds a ['/'], the
    host user is the owner otherwise. *)
Definition fromRawName (find : string -> option HostConfig)
  (user hostname newRepoName : string) : Project :=
  let '(owner, newRepoName) :=
    if Contains newRepoName "/" then
      let split := SplitN2 newRepoName "/" in
      (nth 0 split "", nth 1 split "")
    else (user, newRepoName) in
  NewProject find owner newRepoName hostname.

(** Lines 77-110: from the git check to the desired project. *)
Definition resolveProject (env : Env) (args : Args) : M Project :=
  d <- call CallGitDir (gitDir env) ;;
  _ <- (match d with
        | Err _ => Check (Some notInGitRepository)
        | Ok _ => ret tt
        end) ;;
  newRepoName <-
    (match Params args with
     | [] =>
         w <- call CallWorkdirName (gitWorkdirName env) ;;
         match w with
         | Err e => Fatal e
         | Ok dirName => ret (SanitizeProjectName env dirName)
         end
     | firstParam :: _ =>
         _ <- (if negb (MatchNotDash firstParam)
               then Check (Some (invalidArgument firstParam))
               else ret tt) ;;
         ret firstParam
     end) ;;
  h <- call CallDefaultHost (DefaultHost env) ;;
  match h with
  | Err e => Fatal (FormatError "creating repository" e)
  | Ok host => ret (fromRawName (ConfigFind env) (User host) (HostHost host) newRepoName)
  end.

(** Lines 113-129: the lookup of the desired project.  The answer is the
    project to go on with and the Go variable [repo] ([None] for nil). *)
Definition lookupExisting (env : Env) (fl : Flags) (project : Project)
  : M (Project * option Repository) :=
  r <- call (CallRepository project) (ghRepository env project) ;;
  match r with
  | Ok repo =>
      let foundProject := NewProject (ConfigFind env) (FullName repo) "" (Host project) in
      if SameAs foundProject project then
        if negb (Private repo) && flagCreatePrivate fl then
          Fatal (alreadyPublic (FullName repo))
        else
          _ <- call (Errorln existingDetected) tt ;;
          ret (foundProject, Some repo)
      else ret (project, None)
  | Err _ => ret (project, None)
  end.

(** Lines 131-137: the repository is created when [repo] is nil, unless the
    run is a dry run. *)
Definition createIfMissing (env : Env) (fl : Flags) (args : Args)
  (project : Project) (repo : option Repository) : M Project :=
  match repo with
  | None =>
      if negb (Noop args) then
        c <- call (CallCreateRepository project (flagCreateDescription fl)
                     (flagCreateHomepage fl) (flagCreatePrivate fl))
                  (ghCreateRepository env project (flagCreateDescription fl)
                     (flagCreateHomepage fl) (flagCreatePrivate fl)) ;;
        match c with
        | Err e => Fatal e
        | Ok repo => ret (NewProject (ConfigFind env) (FullName repo) "" (Host project))
        end
      else ret project
  | Some _ => ret project
  end.

(** Lines 113-137: the spec's [reconcile]. *)
Definition reconcile (env : Env) (fl : Flags) (args : Args)
  (project : Project) : M Project :=
  '(project, repo) <- lookupExisting env fl project ;;
  createIfMissing env fl args project repo.

(** Lines 139-155: the [origin] remote and the URL shown to the user. *)
Definition bindOrigin (env : Env) (fl : Flags) (project : Project) : M unit :=
  lr <- call CallLocalRepo (LocalRepo env) ;;
  _ <- Check (res_err lr) ;;
  let originName := "origin" in
  o <- call (CallRemoteByName originName) (RemoteByName env originName) ;;
  _ <- (match o with
        | Ok originRemote =>
            let mismatch :=
              match RemoteProject originRemote with
              | Err _ => true
              | Ok originProject => negb (SameAs originProject project)
              end in
            if mismatch then call (Errorln (remoteExists originRemote)) tt
            else ret tt
        | Err _ =>
            let url := GitURL project in
            call (Before ["git"; "remote"; "add"; "-f"; originName; url]) tt
        end) ;;
  let webUrl := WebURL project in
  _ <- call NoForward tt ;;
  call (BrowseOrCopy webUrl (flagCreateBrowse fl) (flagCreateCopy fl)) tt.

(** [create(command, args)]; [gh := github.NewClient(project.Host)] has no
    effect of its own. *)
Definition create (env : Env) (fl : Flags) (args : Args) : M unit :=
  project <- resolveProject env args ;;
  project <- reconcile env fl args project ;;
  bindOrigin env fl project.

(** ** Observations on a trace *)

Definition is_create_call (e : Event) : bool :=
  match e with CallCreateRepository _ _ _ _ => true | _ => false end.

Definition is_queued (e : Event) : bool :=
  match e with Before _ => true | _ => false end.

Definition is_notice (e : Event) : bool :=
  match e with Errorln _ => true | _ => false end.

(** The spec's [created]: a create call was issued. *)
Definition created (t : list Event) : bool := existsb is_create_call t.

(** A mutating command was queued. *)
Definition queued (t : list Event) : bool := existsb is_queued t.

(** The lookup answer gives no usable record: an error, or a record that is
    not the same project. *)
Definition no_usable_record (env : Env) (project : Project) : Prop :=
  match ghRepository env project with
  | Err _ => True
  | Ok repo => SameAs (NewProject (ConfigFind env) (FullName repo) "" (Host project)) project = false
  end.

(** ** Monad laws used below *)

Lemma bind_ret {A B} (a : A) (f : A -> M B) : bind (ret a) f = f a.
Proof. unfold bind, ret; simpl. destruct (f a); reflexivity. Qed.

Lemma bind_call {A B} (e : Event) (a : A) (f : A -> M B) :
  bind (call e a) f = (e :: fst (f a), snd (f a)).
Proof. unfold bind, call; simpl. destruct (f a); reflexivity. Qed.

Lemma bind_fatal {A B} (msg : string) (f : A -> M B) :
  bind (Fatal msg) f = Fatal msg.
Proof. reflexivity. Qed.

Lemma bind_return_split {A B} (m : M A) t a (f : A -> M B) :
  m = (t, Return a) -> bind m f = (t ++ fst (f a), snd (f a))%list.
Proof. intros ->. unfold bind. destruct (f a); reflexivity. Qed.

Lemma bind_exit_split {A B} (m : M A) t msg (f : A -> M B) :
  m = (t, Exit msg) -> bind m f = (t, Exit msg).
Proof. intros ->. reflexivity. Qed.

Lemma created_app t t' : created (t ++ t') = created t || created t'.
Proof. unfold created. apply existsb_app. Qed.

Lemma queued_app t t' : queued (t ++ t') = queued t || queued t'.
Proof. unfold queued. apply existsb_app. Qed.

(** ** The name resolution and the binder never create or queue *)

(** Case analysis on every collaborator answer and test in the goal, but
    not on the pairs the monad builds. *)
Ltac split_all :=
  repeat (simpl;
    match goal with
    | |- context [match ?x with _ => _ end] =>
        let T := type of x in
        let T := eval hnf in T in
        lazymatch T with
        | prod _ _ => fail
        | _ => destruct x eqn:?
        end
    end).

Lemma resolveProject_quiet env args :
  created (fst (resolveProject env args)) = false /\
  queued (fst (resolveProject env args)) = false.
Proof.
  unfold resolveProject, bind, call, ret, Check, Fatal.
  split_all; auto.
Qed.

Lemma bindOrigin_not_created env fl project :
  created (fst (bindOrigin env fl project)) = false.
Proof.
  unfold bindOrigin, bind, call, ret, Check, Fatal.
  split_all; auto.
Qed.

(** The lookup with no usable record goes on to the create step. *)
Lemma reconcile_no_usable env fl args project :
  no_usable_record env project ->
  reconcile env fl args project =
    (CallRepository project :: fst (createIfMissing env fl args project None),
     snd (createIfMissing env fl args project None)).
Proof.
  unfold no_usable_record, reconcile, lookupExisting, bind, call, ret.
  intro H.
  destruct (ghRepository env project) as [repo|e]; [rewrite H|];
    cbn -[createIfMissing];
    destruct (createIfMissing env fl args project None); reflexivity.
Qed.

Lemma createIfMissing_env env env' fl args project repo :
  ghCreateRepository env' = ghCreateRepository env ->
  ConfigFind env' = ConfigFind env ->
  createIfMissing env' fl args project repo = createIfMissing env fl args project repo.
Proof. intros H Hf. unfold createIfMissing. rewrite H, Hf. reflexivity. Qed.

Lemma createIfMissing_none_creates env fl args project :
  Noop args = false ->
  created (fst (createIfMissing env fl args project None)) = true.
Proof.
  intro H. unfold createIfMissing. rewrite H. simpl.
  destruct (ghCreateRepository env project _ _ _); reflexivity.
Qed.

(** ** Sample inputs *)

(** A configuration with one host, [github.com], whose user is [me]. *)
Definition exampleConfig (host : string) : option HostConfig :=
  if String.eqb host "github.com" then Some (mkHostConfig "github.com" "me")
  else None.

Definition exampleFlags (private : bool) : Flags :=
  mkFlags private false false "" "".

Definition exampleEnv (lookup : Project -> res Repository)
  (origin : res Remote) : Env :=
  mkEnv (Ok ".git") (Ok "widgets") (fun s => s)
    (Ok (mkHostConfig "github.com" "me")) lookup
    (fun p _ _ _ => Ok (mkRepository (Owner p ++ "/" ++ Name p) false))
    (Ok tt) (fun _ => origin) exampleConfig.

Definition widgetsProject : Project := mkProject "myorg" "widgets" "github.com".

Definition widgetsArgs (dryRun : bool) : Args := mkArgs ["myorg/widgets"] dryRun.

Definition notFound : Project -> res Repository := fun _ => Err "404 Not Found".

(** ** C1: reuse of an existing repository *)

(** C1. When the lookup answers a record whose parsed identity is the same
    project as the desired one, and it is not the case that the record is
    public while a private repository was requested, [reconcile] takes the
    reuse branch: it emits "Existing repository detected", goes on with the
    identity parsed from the record's full name, and makes no create call;
    the whole command then issues no create call either. *)
Theorem reconcile_reuses_existing (env : Env) (fl : Flags) (args : Args)
  (project : Project) (repo : Repository) :
  ghRepository env project = Ok repo ->
  SameAs (NewProject (ConfigFind env) (FullName repo) "" (Host project)) project = true ->
  ~ (Private repo = false /\ flagCreatePrivate fl = true) ->
  reconcile env fl args project =
    ([CallRepository project; Errorln existingDetected],
     Return (NewProject (ConfigFind env) (FullName repo) "" (Host project))) /\
  (forall t0, resolveProject env args = (t0, Return project) ->
   create env fl args =
     (t0 ++ [CallRepository project; Errorln existingDetected] ++
        fst (bindOrigin env fl (NewProject (ConfigFind env) (FullName repo) "" (Host project))),
      snd (bindOrigin env fl (NewProject (ConfigFind env) (FullName repo) "" (Host project))))%list /\
   created (fst (create env fl args)) = false).
Proof.
  intros Hl Hs Hp.
  assert (Hr : reconcile env fl args project =
    ([CallRepository project; Errorln existingDetected],
     Return (NewProject (ConfigFind env) (FullName repo) "" (Host project)))).
  { unfold reconcile, lookupExisting, bind, call, ret.
    rewrite Hl. cbn -[NewProject SameAs]. rewrite Hs.
    destruct (Private repo), (flagCreatePrivate fl); try (exfalso; tauto);
      reflexivity. }
  split; [exact Hr|].
  intros t0 Ht0.
  assert (E : create env fl args =
     (t0 ++ [CallRepository project; Errorln existingDetected] ++
        fst (bindOrigin env fl (NewProject (ConfigFind env) (FullName repo) "" (Host project))),
      snd (bindOrigin env fl (NewProject (ConfigFind env) (FullName repo) "" (Host project))))%list).
  { unfold create. rewrite (bind_return_split _ _ _ _ Ht0).
    rewrite (bind_return_split _ _ _ _ Hr). reflexivity. }
  split; [exact E|].
  rewrite E. cbn [fst]. rewrite !created_app.
  pose proof (resolveProject_quiet env args) as [Q _]. rewrite Ht0 in Q.
  simpl in Q. rewrite Q, bindOrigin_not_created. reflexivity.
Qed.

Lemma reconcile_reuses_existing_witness :
  ghRepository (exampleEnv (fun _ => Ok (mkRepository "MyOrg/Widgets" true))
                  (Err "no such remote")) widgetsProject
    = Ok (mkRepository "MyOrg/Widgets" true) /\
  reconcile (exampleEnv (fun _ => Ok (mkRepository "MyOrg/Widgets" true))
               (Err "no such remote"))
    (exampleFlags true) (widgetsArgs false) widgetsProject =
    ([CallRepository widgetsProject; Errorln existingDetected],
     Return (mkProject "MyOrg" "Widgets" "github.com")).
Proof.
  split; [reflexivity|].
  refine (proj1 (reconcile_reuses_existing
    (exampleEnv (fun _ => Ok (mkRepository "MyOrg/Widgets" true))
       (Err "no such remote"))
    (exampleFlags true) (widgetsArgs false) widgetsProject
    (mkRepository "MyOrg/Widgets" true) _ _ _)).
  - reflexivity.
  - vm_compute. reflexivity.
  - intros [H _]. discriminate H.
Defined.

(** ** C2: an existing public repository is not made private *)

(** C2. When the lookup answers a record that is the same project as the
    desired one, the record is public and a private repository was requested,
    [reconcile] exits with "Repository '...' already exists and is public";
    the whole command stops there: no create call, no queued command and no
    call after the lookup. *)
Theorem reconcile_visibility_conflict (env : Env) (fl : Flags) (args : Args)
  (project : Project) (repo : Repository) :
  ghRepository env project = Ok repo ->
  SameAs (NewProject (ConfigFind env) (FullName repo) "" (Host project)) project = true ->
  Private repo = false ->
  flagCreatePrivate fl = true ->
  reconcile env fl args project =
    ([CallRepository project], Exit (alreadyPublic (FullName repo))) /\
  (forall t0, resolveProject env args = (t0, Return project) ->
   create env fl args =
     (t0 ++ [CallRepository project], Exit (alreadyPublic (FullName repo)))%list /\
   created (fst (create env fl args)) = false /\
   queued (fst (create env fl args)) = false).
Proof.
  intros Hl Hs Hp Hf.
  assert (Hr : reconcile env fl args project =
    ([CallRepository project], Exit (alreadyPublic (FullName repo)))).
  { unfold reconcile, lookupExisting, bind, call, ret.
    rewrite Hl. cbn -[NewProject SameAs]. rewrite Hs, Hp, Hf. reflexivity. }
  split; [exact Hr|].
  intros t0 Ht0.
  assert (E : create env fl args =
     (t0 ++ [CallRepository project], Exit (alreadyPublic (FullName repo)))%list).
  { unfold create. rewrite (bind_return_split _ _ _ _ Ht0).
    rewrite (bind_exit_split _ _ _ _ Hr). reflexivity. }
  pose proof (resolveProject_quiet env args) as [Q1 Q2]. rewrite Ht0 in Q1, Q2.
  simpl in Q1, Q2.
  rewrite E. cbn [fst]. rewrite created_app, queued_app, Q1, Q2.
  repeat split; reflexivity.
Qed.

Lemma reconcile_visibility_conflict_witness :
  reconcile (exampleEnv (fun _ => Ok (mkRepository "myorg/widgets" false))
               (Err "no such remote"))
    (exampleFlags true) (widgetsArgs false) widgetsProject =
    ([CallRepository widgetsProject],
     Exit "Repository 'myorg/widgets' already exists and is public").
Proof.
  refine (proj1 (reconcile_visibility_conflict
    (exampleEnv (fun _ => Ok (mkRepository "myorg/widgets" false))
       (Err "no such remote"))
    (exampleFlags true) (widgetsArgs false) widgetsProject
    (mkRepository "myorg/widgets" false) _ _ _ _)); vm_compute; reflexivity.
Defined.

(** ** C3: a failed lookup is the absence of a record *)

(** C3. Whatever error the lookup answers, [reconcile] discards it and goes
    on to the create step as with no record: its run is the lookup call
    followed by the create step for the desired project, the same run as with
    any other lookup error or with a record of another project; outside a
    dry run that step issues the create call. *)
Theorem lookup_error_proceeds_to_create (env : Env) (fl : Flags) (args : Args)
  (project : Project) (e : string) :
  ghRepository env project = Err e ->
  reconcile env fl args project =
    (CallRepository project :: fst (createIfMissing env fl args project None),
     snd (createIfMissing env fl args project None)) /\
  (forall env', no_usable_record env' project ->
   ghCreateRepository env' = ghCreateRepository env ->
   ConfigFind env' = ConfigFind env ->
   reconcile env' fl args project = reconcile env fl args project) /\
  (Noop args = false -> created (fst (reconcile env fl args project)) = true).
Proof.
  intro He.
  assert (Hn : no_usable_record env project)
    by (unfold no_usable_record; rewrite He; exact I).
  pose proof (reconcile_no_usable env fl args project Hn) as Hr.
  split; [exact Hr|]. split.
  - intros env' Hn' Hc Hf. rewrite (reconcile_no_usable env' fl args project Hn'), Hr.
    rewrite (createIfMissing_env env env' fl args project None Hc Hf). reflexivity.
  - intro Hnoop. rewrite Hr. cbn [fst]. unfold created. simpl.
    apply createIfMissing_none_creates. exact Hnoop.
Qed.

Lemma lookup_error_proceeds_to_create_witness :
  reconcile (exampleEnv notFound (Err "no such remote"))
    (exampleFlags false) (widgetsArgs false) widgetsProject =
    ([CallRepository widgetsProject;
      CallCreateRepository widgetsProject "" "" false],
     Return widgetsProject).
Proof.
  refine (proj1 (lookup_error_proceeds_to_create
    (exampleEnv notFound (Err "no such remote"))
    (exampleFlags false) (widgetsArgs false) widgetsProject
    "404 Not Found" _)); reflexivity.
Defined.

(** ** C4: the dry run *)

(** C4. In a dry run with no usable record from the lookup, [reconcile]
    issues no create call, keeps the desired identity and creates nothing. *)
Theorem dry_run_keeps_desired (env : Env) (fl : Flags) (args : Args)
  (project : Project) :
  Noop args = true ->
  no_usable_record env project ->
  reconcile env fl args project = ([CallRepository project], Return project) /\
  created (fst (reconcile env fl args project)) = false.
Proof.
  intros Hnoop Hn.
  assert (Hr : reconcile env fl args project =
                 ([CallRepository project], Return project)).
  { rewrite (reconcile_no_usable env fl args project Hn).
    unfold createIfMissing. rewrite Hnoop. reflexivity. }
  rewrite Hr. split; reflexivity.
Qed.

Lemma dry_run_keeps_desired_witness :
  reconcile (exampleEnv notFound (Err "no such remote"))
    (exampleFlags false) (widgetsArgs true) widgetsProject =
    ([CallRepository widgetsProject], Return widgetsProject).
Proof.
  refine (proj1 (dry_run_keeps_desired
    (exampleEnv notFound (Err "no such remote"))
    (exampleFlags false) (widgetsArgs true) widgetsProject _ _)).
  - reflexivity.
  - exact I.
Defined.

(** ** Splitting at the first ['/'] *)

Lemma splitFirst_none c s : splitFirst c s = None <-> Contains s c = false.
Proof.
  induction s as [|x s IH]; simpl; [tauto|].
  destruct (Ascii.eqb x c); simpl; [split; intro H; discriminate H|].
  destruct (splitFirst c s) as [[a b]|] eqn:E; split; intro H.
  - discriminate H.
  - apply IH in H. discriminate H.
  - apply IH. reflexivity.
  - reflexivity.
Qed.

Lemma splitFirst_some c s a b :
  splitFirst c s = Some (a, b) -> Contains a c = false /\ Contains s c = true.
Proof.
  revert a. induction s as [|x s IH]; intros a H; simpl in *; [discriminate|].
  destruct (Ascii.eqb x c) eqn:Ex.
  - injection H as <- <-. split; reflexivity.
  - destruct (splitFirst c s) as [[a' b']|]; [|discriminate].
    injection H as <- <-. destruct (IH a' eq_refl) as [H1 H2].
    simpl. rewrite Ex, H1, H2. split; reflexivity.
Qed.

Lemma splitFirst_app c a b :
  Contains a c = false -> splitFirst c (a ++ String c b) = Some (a, b).
Proof.
  induction a as [|x a IH]; simpl; intro H.
  - rewrite Ascii.eqb_refl. reflexivity.
  - apply orb_false_iff in H as [H1 H2]. rewrite H1, IH by exact H2.
    reflexivity.
Qed.

(** [fromRawName] by the first ['/'] of the raw name. *)
Lemma fromRawName_split find user hostname raw :
  fromRawName find user hostname raw =
    match splitFirst "/" raw with
    | Some (a, b) => NewProject find a b hostname
    | None => NewProject find user raw hostname
    end.
Proof.
  unfold fromRawName, SplitN2.
  destruct (splitFirst "/" raw) as [[a b]|] eqn:E.
  - rewrite (proj2 (splitFirst_some _ _ _ _ E)). reflexivity.
  - apply splitFirst_none in E. rewrite E. reflexivity.
Qed.

(** The name [NewProject] keeps, for an owner without ['/']: the text after
    the first ['/'] of the name argument, or all of it. *)
Lemma NewProject_name find owner name host :
  Contains owner "/" = false ->
  Name (NewProject find owner name host) =
    match splitFirst "/" name with Some (_, n) => n | None => name end.
Proof.
  intro Ho. unfold NewProject, SplitN2. rewrite Ho.
  destruct (splitFirst "/" name) as [[n0 n1]|] eqn:E.
  - rewrite (proj2 (splitFirst_some _ _ _ _ E)). simpl.
    repeat destruct (String.eqb _ _); try destruct (find host); reflexivity.
  - rewrite (proj1 (splitFirst_none _ _) E). simpl.
    repeat destruct (String.eqb _ _); try destruct (find host); reflexivity.
Qed.

(** [NewProject] with a non-empty owner without ['/']. *)
Lemma NewProject_plain_owner find owner name host :
  Contains owner "/" = false -> owner <> "" ->
  NewProject find owner name host =
    match splitFirst "/" name with
    | Some (_, n) => mkProject owner n host
    | None => mkProject owner name host
    end.
Proof.
  intros Ho Hne. unfold NewProject, SplitN2. rewrite Ho.
  assert (Eo : String.eqb owner "" = false)
    by (apply String.eqb_neq; exact Hne).
  destruct (splitFirst "/" name) as [[n0 n1]|] eqn:E.
  - rewrite (proj2 (splitFirst_some _ _ _ _ E)). simpl. rewrite !Eo.
    reflexivity.
  - rewrite (proj1 (splitFirst_none _ _) E). simpl. rewrite Eo. reflexivity.
Qed.

(** ** C5: the name part *)

(** C5, as the code does it: the raw name is split at its first ['/'] by
    [create], and [NewProject] splits the rest once more at its first ['/'].
    The name is the text after the second ['/'] of the raw name when there is
    one, after the first otherwise; it holds a ['/'] exactly when the raw name
    holds three or more (for a host user without ['/']). *)
Theorem fromRawName_name_after_second_split
  (find : string -> option HostConfig) (user hostname raw : string) :
  Contains user "/" = false ->
  Name (fromRawName find user hostname raw) =
    match splitFirst "/" raw with
    | Some (_, rest) =>
        match splitFirst "/" rest with Some (_, n) => n | None => rest end
    | None => raw
    end /\
  Contains (Name (fromRawName find user hostname raw)) "/" =
    match splitFirst "/" raw with
    | Some (_, rest) =>
        match splitFirst "/" rest with
        | Some (_, n) => Contains n "/"
        | None => false
        end
    | None => false
    end.
Proof.
  intro Hu.
  assert (HN : Name (fromRawName find user hostname raw) =
    match splitFirst "/" raw with
    | Some (_, rest) =>
        match splitFirst "/" rest with Some (_, n) => n | None => rest end
    | None => raw
    end).
  { rewrite fromRawName_split.
    destruct (splitFirst "/" raw) as [[a b]|] eqn:E.
    - apply NewProject_name. exact (proj1 (splitFirst_some _ _ _ _ E)).
    - rewrite NewProject_name by exact Hu. rewrite E. reflexivity. }
  split; [exact HN|]. rewrite HN.
  destruct (splitFirst "/" raw) as [[a b]|] eqn:E.
  - destruct (splitFirst "/" b) as [[b0 b1]|] eqn:E2; [reflexivity|].
    apply splitFirst_none. exact E2.
  - apply splitFirst_none. exact E.
Qed.

Lemma fromRawName_name_after_second_split_witness :
  Name (fromRawName exampleConfig "me" "github.com" "org/sub/repo") = "repo" /\
  Contains (Name (fromRawName exampleConfig "me" "github.com" "org/a/b/c")) "/"
    = true.
Proof.
  split.
  - exact (proj1 (fromRawName_name_after_second_split exampleConfig "me"
                    "github.com" "org/sub/repo" eq_refl)).
  - exact (proj2 (fromRawName_name_after_second_split exampleConfig "me"
                    "github.com" "org/a/b/c" eq_refl)).
Defined.

(** C5 fails as stated: the raw name "org/a/b/c" gives owner "org" and
    name "b/c", a name that holds a ['/']. *)
Lemma raw_name_org_a_b_c_keeps_slash :
  resolveProject (exampleEnv notFound (Err "no such remote"))
    (mkArgs ["org/a/b/c"] false) =
    ([CallGitDir; CallDefaultHost],
     Return (mkProject "org" "b/c" "github.com")) /\
  Contains (Name (mkProject "org" "b/c" "github.com")) "/" = true.
Proof. split; reflexivity. Qed.

(** ** C6: the owner part *)

(** C6, as the code does it.  For a raw name whose text before the first
    ['/'] is non-empty, that text is the owner; the text after the first
    ['/'] is the name when it holds no ['/'], and otherwise only what follows
    its own first ['/'] is.  A raw name with no ['/'] gets the host user as
    owner (a non-empty user without ['/']). *)
Theorem fromRawName_owner_and_name (find : string -> option HostConfig)
  (user hostname : string) :
  (forall a b, Contains a "/" = false -> a <> "" -> Contains b "/" = false ->
     fromRawName find user hostname (a ++ String "/" b) =
       mkProject a b hostname) /\
  (forall a b0 b1, Contains a "/" = false -> a <> "" ->
     Contains b0 "/" = false ->
     fromRawName find user hostname (a ++ String "/" (b0 ++ String "/" b1)) =
       mkProject a b1 hostname) /\
  (forall raw, Contains raw "/" = false ->
     Contains user "/" = false -> user <> "" ->
     fromRawName find user hostname raw = mkProject user raw hostname).
Proof.
  split; [|split].
  - intros a b Ha Hne Hb.
    rewrite fromRawName_split, splitFirst_app by exact Ha.
    rewrite NewProject_plain_owner by assumption.
    rewrite (proj2 (splitFirst_none _ _) Hb). reflexivity.
  - intros a b0 b1 Ha Hne Hb0.
    rewrite fromRawName_split, splitFirst_app by exact Ha.
    rewrite NewProject_plain_owner by assumption.
    rewrite splitFirst_app by exact Hb0. reflexivity.
  - intros raw Hraw Hu Hne.
    rewrite fromRawName_split, (proj2 (splitFirst_none _ _) Hraw).
    rewrite NewProject_plain_owner by assumption.
    rewrite (proj2 (splitFirst_none _ _) Hraw). reflexivity.
Qed.

Lemma fromRawName_owner_and_name_witness :
  fromRawName exampleConfig "me" "github.com" ("org" ++ String "/" "widgets") =
    mkProject "org" "widgets" "github.com" /\
  fromRawName exampleConfig "me" "github.com"
    ("org" ++ String "/" ("sub" ++ String "/" "repo")) =
    mkProject "org" "repo" "github.com" /\
  fromRawName exampleConfig "me" "github.com" "widgets" =
    mkProject "me" "widgets" "github.com".
Proof.
  split; [|split].
  - apply (proj1 (fromRawName_owner_and_name exampleConfig "me" "github.com"));
      [reflexivity | discriminate | reflexivity].
  - apply (proj1 (proj2 (fromRawName_owner_and_name exampleConfig "me"
                           "github.com")));
      [reflexivity | discriminate | reflexivity].
  - apply (proj2 (proj2 (fromRawName_owner_and_name exampleConfig "me"
                           "github.com")));
      [reflexivity | reflexivity | discriminate].
Defined.

(** C6 fails as stated: in the raw name "org/sub/repo" the text after the
    first ['/'] is "sub/repo", but the identity's name is "repo". *)
Lemma raw_name_org_sub_repo_drops_sub :
  resolveProject (exampleEnv notFound (Err "no such remote"))
    (mkArgs ["org/sub/repo"] false) =
    ([CallGitDir; CallDefaultHost],
     Return (mkProject "org" "repo" "github.com")).
Proof. reflexivity. Qed.

(** ** C7: the [origin] remote *)

(** The end of every normal run: the web URL of the project is shown. *)
Definition surfaceURL (fl : Flags) (project : Project) : list Event :=
  [NoForward;
   BrowseOrCopy (WebURL project) (flagCreateBrowse fl) (flagCreateCopy fl)].

Definition addOrigin (project : Project) : Event :=
  Before ["git"; "remote"; "add"; "-f"; "origin"; GitURL project].

(** C7. Once the local repository is read, the binder does one of three
    things: an [origin] remote whose URL gives no project, or a project that
    is not the same as the final one, gets a warning and no queued command;
    an [origin] remote of the same project gets nothing; with no [origin]
    remote, [git remote add -f origin <url>] is queued (with [args.Before],
    not run). *)
Theorem bindOrigin_cases (env : Env) (fl : Flags) (project : Project) :
  LocalRepo env = Ok tt ->
  (forall r, RemoteByName env "origin" = Ok r ->
     ((exists e, RemoteProject r = Err e) \/
      (exists op, RemoteProject r = Ok op /\ SameAs op project = false)) ->
     bindOrigin env fl project =
       (CallLocalRepo :: CallRemoteByName "origin" ::
          Errorln (remoteExists r) :: surfaceURL fl project, Return tt) /\
     queued (fst (bindOrigin env fl project)) = false) /\
  (forall r op, RemoteByName env "origin" = Ok r ->
     RemoteProject r = Ok op -> SameAs op project = true ->
     bindOrigin env fl project =
       (CallLocalRepo :: CallRemoteByName "origin" :: surfaceURL fl project,
        Return tt)) /\
  (forall e, RemoteByName env "origin" = Err e ->
     bindOrigin env fl project =
       (CallLocalRepo :: CallRemoteByName "origin" :: addOrigin project ::
          surfaceURL fl project, Return tt)).
Proof.
  intro Hl.
  unfold bindOrigin, bind, call, ret, Check, res_err. rewrite Hl. simpl.
  split; [|split].
  - intros r Hr Hm. rewrite Hr.
    destruct Hm as [[e He]|[op [Ho Hs]]].
    + rewrite He. simpl. split; reflexivity.
    + rewrite Ho, Hs. simpl. split; reflexivity.
  - intros r op Hr Ho Hs. rewrite Hr, Ho, Hs. reflexivity.
  - intros e Hr. rewrite Hr. reflexivity.
Qed.

Definition unrelatedOrigin : Remote :=
  mkRemote "origin" "git@github.com:other/unrelated.git"
    (Ok (mkProject "other" "unrelated" "github.com")).

Lemma bindOrigin_cases_witness :
  bindOrigin (exampleEnv notFound (Ok unrelatedOrigin)) (exampleFlags false)
    widgetsProject =
    (CallLocalRepo :: CallRemoteByName "origin" ::
       Errorln (remoteExists unrelatedOrigin) ::
       surfaceURL (exampleFlags false) widgetsProject, Return tt).
Proof.
  refine (proj1 (proj1 (bindOrigin_cases
    (exampleEnv notFound (Ok unrelatedOrigin)) (exampleFlags false)
    widgetsProject _) unrelatedOrigin _ _)).
  - reflexivity.
  - reflexivity.
  - right. exists (mkProject "other" "unrelated" "github.com").
    split; reflexivity.
Defined.

(** ** C8: a name argument that starts with ['-'] *)

Definition outsideEnv : Env :=
  mkEnv (Err "fatal: not a git repository") (Ok "widgets") (fun s => s)
    (Ok (mkHostConfig "github.com" "me")) notFound
    (fun p _ _ _ => Ok (mkRepository (Owner p ++ "/" ++ Name p) false))
    (Ok tt) (fun _ => Err "no such remote") exampleConfig.

(** C8 fails as stated: the argument is checked after [git.Dir()], a git
    command; inside a working copy that call has been made when the command
    exits, and outside one the command exits with the git message instead. *)
Lemma leading_dash_after_git_dir :
  create (exampleEnv notFound (Err "no such remote")) (exampleFlags false)
    (mkArgs ["-x"] false) = ([CallGitDir], Exit (invalidArgument "-x")) /\
  create outsideEnv (exampleFlags false) (mkArgs ["-x"] false) =
    ([CallGitDir], Exit notInGitRepository).
Proof. split; reflexivity. Qed.

(** C8, as the code does it: inside a git working copy, an explicit name
    argument that does not match [^[^-]] makes the command exit with
    "invalid argument: <arg>" right after the git check, the only call it
    has made. *)
Theorem leading_dash_rejected (env : Env) (fl : Flags) (args : Args)
  (arg : string) (rest : list string) (d : string) :
  gitDir env = Ok d ->
  Params args = arg :: rest ->
  MatchNotDash arg = false ->
  create env fl args = ([CallGitDir], Exit (invalidArgument arg)).
Proof.
  intros Hd Hp Hm.
  unfold create, resolveProject, bind, call, ret, Check, Fatal.
  rewrite Hd, Hp, Hm. reflexivity.
Qed.

Lemma leading_dash_rejected_witness :
  create (exampleEnv notFound (Err "no such remote")) (exampleFlags false)
    (mkArgs ["-private"] false) =
    ([CallGitDir], Exit "invalid argument: -private").
Proof.
  apply (leading_dash_rejected _ _ _ "-private" [] ".git"); reflexivity.
Defined.

(** ** C9: the web URL of the final project *)

Lemma bindOrigin_shape env fl project :
  LocalRepo env = Ok tt ->
  exists t, bindOrigin env fl project =
    (CallLocalRepo :: CallRemoteByName "origin" :: t ++ surfaceURL fl project,
     Return tt)%list.
Proof.
  intro Hl. unfold bindOrigin, bind, call, ret, Check, res_err. rewrite Hl.
  simpl.
  destruct (RemoteByName env "origin") as [r|e].
  - destruct (RemoteProject r) as [op|e];
      [destruct (SameAs op project)|]; simpl;
      first [exists []; reflexivity
            | exists [Errorln (remoteExists r)]; reflexivity].
  - exists [addOrigin project]; reflexivity.
Qed.

(** C9. In a run that gets past the fatal checks with final project [p'],
    the command ends by showing the web URL of [p'], whatever the [origin]
    remote is: a remote of another project changes only what comes before. *)
Theorem create_surfaces_final_url (env : Env) (fl : Flags) (args : Args)
  (t0 : list Event) (p : Project) (t1 : list Event) (p' : Project) :
  resolveProject env args = (t0, Return p) ->
  reconcile env fl args p = (t1, Return p') ->
  LocalRepo env = Ok tt ->
  exists t, create env fl args =
    (t0 ++ t1 ++ CallLocalRepo :: CallRemoteByName "origin" :: t ++
       surfaceURL fl p', Return tt)%list.
Proof.
  intros H0 H1 Hl.
  destruct (bindOrigin_shape env fl p' Hl) as [t Ht].
  exists t. unfold create.
  rewrite (bind_return_split _ _ _ _ H0), (bind_return_split _ _ _ _ H1), Ht.
  reflexivity.
Qed.

Lemma create_surfaces_final_url_witness :
  exists t, create
    (exampleEnv (fun _ => Ok (mkRepository "myorg/widgets" false))
       (Ok unrelatedOrigin))
    (exampleFlags false) (widgetsArgs false) =
    ([CallGitDir; CallDefaultHost] ++
     [CallRepository widgetsProject; Errorln existingDetected] ++
     CallLocalRepo :: CallRemoteByName "origin" :: t ++
     [NoForward; BrowseOrCopy "https://github.com/myorg/widgets" false false],
     Return tt)%list.
Proof.
  refine (create_surfaces_final_url
    (exampleEnv (fun _ => Ok (mkRepository "myorg/widgets" false))
       (Ok unrelatedOrigin))
    (exampleFlags false) (widgetsArgs false)
    [CallGitDir; CallDefaultHost] widgetsProject
    [CallRepository widgetsProject; Errorln existingDetected] widgetsProject
    _ _ _); reflexivity.
Defined.

(** ** C10: outside a git working copy *)

(** C10. When [git.Dir()] fails, the command exits with "'create' must be
    run from inside a git repository" before any other call: no name
    resolution, host configuration or gateway call. *)
Theorem outside_git_repository (env : Env) (fl : Flags) (args : Args)
  (e : string) :
  gitDir env = Err e ->
  create env fl args = ([CallGitDir], Exit notInGitRepository).
Proof.
  intro Hd. unfold create, resolveProject, bind, call, ret, Check, Fatal.
  rewrite Hd. reflexivity.
Qed.

Lemma outside_git_repository_witness :
  create outsideEnv (exampleFlags true) (widgetsArgs false) =
    ([CallGitDir], Exit "'create' must be run from inside a git repository").
Proof.
  apply (outside_git_repository _ _ _ "fatal: not a git repository").
  reflexivity.
Defined.

(** * Further properties of [create] *)

(** The number of create calls. *)
Definition count_create (t : list Event) : nat :=
  length (filter is_create_call t).

Lemma count_create_app t t' :
  count_create (t ++ t') = count_create t + count_create t'.
Proof. unfold count_create. rewrite filter_app, length_app. reflexivity. Qed.

Lemma count_create_none t : created t = false -> count_create t = 0.
Proof.
  unfold created, count_create. induction t as [|e t IH]; simpl; [reflexivity|].
  intro H. apply orb_false_iff in H as [H1 H2]. rewrite H1. exact (IH H2).
Qed.

(** A run of [create] is a run of its three parts. *)
Lemma create_cases env fl args t o :
  create env fl args = (t, o) ->
  (exists m, resolveProject env args = (t, Exit m) /\ o = Exit m) \/
  (exists t0 p t1 m, resolveProject env args = (t0, Return p) /\
     reconcile env fl args p = (t1, Exit m) /\ t = (t0 ++ t1)%list /\ o = Exit m) \/
  (exists t0 p t1 p' t2, resolveProject env args = (t0, Return p) /\
     reconcile env fl args p = (t1, Return p') /\
     bindOrigin env fl p' = (t2, o) /\ t = (t0 ++ t1 ++ t2)%list).
Proof.
  unfold create, bind at 1.
  destruct (resolveProject env args) as [t0 [p|m]] eqn:E0.
  - unfold bind at 1. destruct (reconcile env fl args p) as [t1 [p'|m]] eqn:E1.
    + destruct (bindOrigin env fl p') as [t2 o2] eqn:E2. intro H.
      injection H as <- <-. right; right. exists t0, p, t1, p', t2. auto.
    + intro H. injection H as <- <-. right; left. exists t0, p, t1, m. auto.
  - intro H. injection H as <- <-. left. exists m. auto.
Qed.

(** What [reconcile] never does. *)
Lemma reconcile_quiet env fl args p :
  queued (fst (reconcile env fl args p)) = false /\
  count_create (fst (reconcile env fl args p)) <= 1.
Proof.
  unfold reconcile, lookupExisting, createIfMissing, bind, call, ret, Fatal.
  split_all; auto.
Qed.

Lemma reconcile_create_call env fl args q p d h b :
  In (CallCreateRepository p d h b) (fst (reconcile env fl args q)) ->
  p = q /\ d = flagCreateDescription fl /\ h = flagCreateHomepage fl /\
  b = flagCreatePrivate fl /\ Noop args = false /\
  fst (reconcile env fl args q) = [CallRepository p; CallCreateRepository p d h b].
Proof.
  unfold reconcile, lookupExisting, createIfMissing, bind, call, ret, Fatal.
  split_all; simpl; intro H;
    repeat match goal with
    | H : _ \/ _ |- _ => destruct H as [H|H]
    | H : False |- _ => destruct H
    | H : CallRepository _ = CallCreateRepository _ _ _ _ |- _ => discriminate H
    | H : CallCreateRepository _ _ _ _ = CallCreateRepository _ _ _ _ |- _ =>
        injection H as <- <- <- <-
    | H : negb _ = true |- _ => apply negb_true_iff in H
    end;
    intuition congruence.
Qed.

Lemma bindOrigin_queued env fl p :
  queued (fst (bindOrigin env fl p)) = true ->
  LocalRepo env = Ok tt /\
  exists e, RemoteByName env "origin" = Err e.
Proof.
  unfold bindOrigin, bind, call, ret, Check, Fatal, res_err.
  destruct (LocalRepo env) as [[]|e]; [|simpl; discriminate].
  split_all; simpl; intro H; try discriminate H; eauto.
Qed.

Lemma in_created p d h b t :
  In (CallCreateRepository p d h b) t -> created t = true.
Proof. intro H. apply existsb_exists. exists (CallCreateRepository p d h b). auto. Qed.

Lemma created_in t :
  created t = true -> exists p d h b, In (CallCreateRepository p d h b) t.
Proof.
  intro H. apply existsb_exists in H as [[] [Hin He]]; try discriminate He.
  eauto.
Qed.

(** X1. One run of [create] makes at most one create call: it never creates
    two repositories. *)
Theorem create_at_most_one_creation (env : Env) (fl : Flags) (args : Args) :
  count_create (fst (create env fl args)) <= 1.
Proof.
  destruct (create env fl args) as [t o] eqn:E. simpl.
  apply create_cases in E as
    [[m [E0 _]] | [[t0 [p [t1 [m [E0 [E1 [-> _]]]]]]] |
                   [t0 [p [t1 [p' [t2 [E0 [E1 [E2 ->]]]]]]]]]].
  - pose proof (proj1 (resolveProject_quiet env args)) as Q.
    rewrite E0 in Q. simpl in Q. rewrite (count_create_none _ Q). lia.
  - pose proof (proj1 (resolveProject_quiet env args)) as Q.
    pose proof (proj2 (reconcile_quiet env fl args p)) as R.
    rewrite E0 in Q. rewrite E1 in R. simpl in Q, R.
    rewrite count_create_app, (count_create_none _ Q). lia.
  - pose proof (proj1 (resolveProject_quiet env args)) as Q.
    pose proof (proj2 (reconcile_quiet env fl args p)) as R.
    pose proof (bindOrigin_not_created env fl p') as B.
    rewrite E0 in Q. rewrite E1 in R. rewrite E2 in B. simpl in Q, R, B.
    rewrite !count_create_app, (count_create_none _ Q), (count_create_none _ B).
    lia.
Qed.

(** X2. A command is queued only in a run whose name resolution, lookup and
    create step all succeeded, whose local repository was read, and whose
    working copy has no [origin] remote. *)
Theorem create_queues_only_at_the_end (env : Env) (fl : Flags) (args : Args) :
  queued (fst (create env fl args)) = true ->
  (exists t0 p t1 p', resolveProject env args = (t0, Return p) /\
     reconcile env fl args p = (t1, Return p')) /\
  LocalRepo env = Ok tt /\
  exists e, RemoteByName env "origin" = Err e.
Proof.
  destruct (create env fl args) as [t o] eqn:E. simpl.
  pose proof (proj2 (resolveProject_quiet env args)) as Q.
  apply create_cases in E as
    [[m [E0 _]] | [[t0 [p [t1 [m [E0 [E1 [-> _]]]]]]] |
                   [t0 [p [t1 [p' [t2 [E0 [E1 [E2 ->]]]]]]]]]];
    rewrite E0 in Q; simpl in Q.
  - rewrite Q. discriminate.
  - pose proof (proj1 (reconcile_quiet env fl args p)) as R.
    rewrite E1 in R. simpl in R. rewrite queued_app, Q, R. discriminate.
  - pose proof (proj1 (reconcile_quiet env fl args p)) as R.
    rewrite E1 in R. simpl in R. rewrite !queued_app, Q, R. simpl. intro H.
    pose proof (bindOrigin_queued env fl p') as B. rewrite E2 in B.
    split; [exists t0, p, t1, p'; auto | exact (B H)].
Qed.

Lemma create_queues_only_at_the_end_witness :
  (exists t0 p t1 p',
     resolveProject (exampleEnv notFound (Err "no such remote"))
       (widgetsArgs false) = (t0, Return p) /\
     reconcile (exampleEnv notFound (Err "no such remote")) (exampleFlags false)
       (widgetsArgs false) p = (t1, Return p')) /\
  LocalRepo (exampleEnv notFound (Err "no such remote")) = Ok tt /\
  exists e, RemoteByName (exampleEnv notFound (Err "no such remote")) "origin"
              = Err e.
Proof. apply create_queues_only_at_the_end. reflexivity. Defined.

(** A create call of a run is one of its [reconcile] part, whose trace is a
    contiguous part of the run's. *)
Lemma create_call_in_reconcile env fl args p d h b :
  In (CallCreateRepository p d h b) (fst (create env fl args)) ->
  exists q pre post,
    In (CallCreateRepository p d h b) (fst (reconcile env fl args q)) /\
    fst (create env fl args) = (pre ++ fst (reconcile env fl args q) ++ post)%list.
Proof.
  destruct (create env fl args) as [t o] eqn:E. simpl. intro H.
  pose proof (proj1 (resolveProject_quiet env args)) as Q.
  apply create_cases in E as
    [[m [E0 _]] | [[t0 [q [t1 [m [E0 [E1 [-> _]]]]]]] |
                   [t0 [q [t1 [p' [t2 [E0 [E1 [E2 ->]]]]]]]]]];
    rewrite E0 in Q; simpl in Q.
  - apply in_created in H. congruence.
  - exists q, t0, []. rewrite E1. simpl.
    apply in_app_or in H as [H|H]; [apply in_created in H; congruence|].
    split; [exact H|]. rewrite app_nil_r. reflexivity.
  - exists q, t0, t2. rewrite E1. simpl.
    apply in_app_or in H as [H|H]; [apply in_created in H; congruence|].
    apply in_app_or in H as [H|H].
    + split; [exact H | reflexivity].
    + pose proof (bindOrigin_not_created env fl p') as B. rewrite E2 in B.
      apply in_created in H. simpl in B. congruence.
Qed.

(** X4. A dry run ([args.Noop]) never makes a create call, whatever the
    lookup answers. *)
Theorem dry_run_never_creates (env : Env) (fl : Flags) (args : Args) :
  Noop args = true ->
  created (fst (create env fl args)) = false.
Proof.
  intro Hn. destruct (created (fst (create env fl args))) eqn:C; [|reflexivity].
  apply created_in in C as [p [d [h [b H]]]].
  apply create_call_in_reconcile in H as [q [pre [post [H _]]]].
  apply reconcile_create_call in H as [_ [_ [_ [_ [Hn' _]]]]]. congruence.
Qed.

Lemma dry_run_never_creates_witness :
  created (fst (create (exampleEnv notFound (Err "no such remote"))
                  (exampleFlags true) (widgetsArgs true))) = false.
Proof. apply dry_run_never_creates. reflexivity. Defined.

(** X5. Every create call of a run carries the command's description,
    homepage and private flags, is made outside a dry run, and comes
    immediately after the lookup of the same project. *)
Theorem create_call_arguments (env : Env) (fl : Flags) (args : Args)
  (p : Project) (d h : string) (b : bool) :
  In (CallCreateRepository p d h b) (fst (create env fl args)) ->
  d = flagCreateDescription fl /\ h = flagCreateHomepage fl /\
  b = flagCreatePrivate fl /\ Noop args = false /\
  exists pre post, fst (create env fl args) =
    (pre ++ CallRepository p :: CallCreateRepository p d h b :: post)%list.
Proof.
  intro H. apply create_call_in_reconcile in H as [q [pre [post [H Ht]]]].
  apply reconcile_create_call in H as [-> [Hd [Hh [Hb [Hn Hr]]]]].
  rewrite Hr in Ht. repeat split; auto. exists pre, post. exact Ht.
Qed.

Lemma create_call_arguments_witness :
  exists pre post,
    fst (create (exampleEnv notFound (Err "no such remote"))
           (mkFlags true false false "A widget" "https://example.com")
           (widgetsArgs false)) =
    (pre ++ CallRepository widgetsProject ::
       CallCreateRepository widgetsProject "A widget" "https://example.com" true
       :: post)%list.
Proof.
  refine (proj2 (proj2 (proj2 (proj2 (create_call_arguments
    (exampleEnv notFound (Err "no such remote"))
    (mkFlags true false false "A widget" "https://example.com")
    (widgetsArgs false) widgetsProject "A widget" "https://example.com" true
    _))))).
  vm_compute. right; right; right; left. reflexivity.
Defined.

(** X7. With no name argument, the desired name is the sanitized name of
    the working directory; an error reading that name ends the command with
    the error itself, before the host configuration is read. *)
Theorem create_uses_workdir_name (env : Env) (fl : Flags) (args : Args)
  (d : string) :
  gitDir env = Ok d ->
  Params args = [] ->
  (forall e, gitWorkdirName env = Err e ->
     create env fl args = ([CallGitDir; CallWorkdirName], Exit e)) /\
  (forall dir host, gitWorkdirName env = Ok dir -> DefaultHost env = Ok host ->
     resolveProject env args =
       ([CallGitDir; CallWorkdirName; CallDefaultHost],
        Return (fromRawName (ConfigFind env) (User host) (HostHost host)
                  (SanitizeProjectName env dir)))).
Proof.
  intros Hd Hp. split.
  - intros e He. unfold create, resolveProject, bind, call, ret, Check, Fatal.
    rewrite Hd, Hp, He. reflexivity.
  - intros dir host Hw Hh. unfold resolveProject, bind, call, ret, Check, Fatal.
    rewrite Hd, Hp, Hw, Hh. reflexivity.
Qed.

Lemma create_uses_workdir_name_witness :
  resolveProject (exampleEnv notFound (Err "no such remote")) (mkArgs [] false) =
    ([CallGitDir; CallWorkdirName; CallDefaultHost],
     Return (mkProject "me" "widgets" "github.com")).
Proof.
  exact (proj2 (create_uses_workdir_name
    (exampleEnv notFound (Err "no such remote")) (exampleFlags false)
    (mkArgs [] false) ".git" eq_refl eq_refl) "widgets"
    (mkHostConfig "github.com" "me") eq_refl eq_refl).
Defined.

(** X8. When the host configuration cannot be read, the command ends with
    that error, passed through [FormatError] for "creating repository",
    right after reading it: no lookup, no create call, nothing queued. *)
Theorem create_host_config_failure (env : Env) (fl : Flags) (args : Args)
  (d e : string) :
  gitDir env = Ok d ->
  DefaultHost env = Err e ->
  (forall first rest, Params args = first :: rest -> MatchNotDash first = true ->
     create env fl args =
       ([CallGitDir; CallDefaultHost],
        Exit (FormatError "creating repository" e))) /\
  (forall dir, Params args = [] -> gitWorkdirName env = Ok dir ->
     create env fl args =
       ([CallGitDir; CallWorkdirName; CallDefaultHost],
        Exit (FormatError "creating repository" e))).
Proof.
  intros Hd Hh. split.
  - intros first rest Hp Hm.
    unfold create, resolveProject, bind, call, ret, Check, Fatal.
    rewrite Hd, Hp, Hm, Hh. reflexivity.
  - intros dir Hp Hw.
    unfold create, resolveProject, bind, call, ret, Check, Fatal.
    rewrite Hd, Hp, Hw, Hh. reflexivity.
Qed.

Lemma create_host_config_failure_witness :
  create (mkEnv (Ok ".git") (Ok "widgets") (fun s => s) (Err "no host")
            notFound (fun p _ _ _ => Err "unused") (Ok tt)
            (fun _ => Err "no such remote") exampleConfig)
    (exampleFlags false) (widgetsArgs false) =
    ([CallGitDir; CallDefaultHost], Exit "no host").
Proof.
  apply (proj1 (create_host_config_failure
    (mkEnv (Ok ".git") (Ok "widgets") (fun s => s) (Err "no host")
       notFound (fun p _ _ _ => Err "unused") (Ok tt)
       (fun _ => Err "no such remote") exampleConfig)
    (exampleFlags false) (widgetsArgs false) ".git" "no host" eq_refl eq_refl)
    "myorg/widgets" []); reflexivity.
Defined.

(** With no [origin] remote the binder queues [git remote add]. *)
Lemma bindOrigin_no_origin env fl project e :
  LocalRepo env = Ok tt ->
  RemoteByName env "origin" = Err e ->
  bindOrigin env fl project =
    ([CallLocalRepo; CallRemoteByName "origin"; addOrigin project] ++
     surfaceURL fl project, Return tt)%list.
Proof.
  intros Hl Ho. unfold bindOrigin, bind, call, ret, Check, res_err.
  rewrite Hl, Ho. reflexivity.
Qed.

(** X9. When the create call fails, the command ends with the API's error
    as it is, right after the call: the local repository is not read and
    nothing is queued or shown. *)
Theorem create_failure_is_fatal (env : Env) (fl : Flags) (args : Args)
  (t0 : list Event) (p : Project) (e : string) :
  resolveProject env args = (t0, Return p) ->
  no_usable_record env p ->
  Noop args = false ->
  ghCreateRepository env p (flagCreateDescription fl) (flagCreateHomepage fl)
    (flagCreatePrivate fl) = Err e ->
  create env fl args =
    (t0 ++ [CallRepository p;
            CallCreateRepository p (flagCreateDescription fl)
              (flagCreateHomepage fl) (flagCreatePrivate fl)], Exit e)%list.
Proof.
  intros H0 Hn Hnoop Hc.
  assert (Hr : reconcile env fl args p =
    ([CallRepository p;
      CallCreateRepository p (flagCreateDescription fl)
        (flagCreateHomepage fl) (flagCreatePrivate fl)], Exit e)).
  { rewrite (reconcile_no_usable env fl args p Hn).
    unfold createIfMissing, bind, call. rewrite Hnoop, Hc. reflexivity. }
  unfold create. rewrite (bind_return_split _ _ _ _ H0).
  rewrite (bind_exit_split _ _ _ _ Hr). reflexivity.
Qed.

Definition failingEnv : Env :=
  mkEnv (Ok ".git") (Ok "widgets") (fun s => s)
    (Ok (mkHostConfig "github.com" "me")) notFound
    (fun _ _ _ _ => Err "422 name already exists on this account")
    (Ok tt) (fun _ => Err "no such remote") exampleConfig.

Lemma create_failure_is_fatal_witness :
  create failingEnv (exampleFlags false) (widgetsArgs false) =
    ([CallGitDir; CallDefaultHost; CallRepository widgetsProject;
      CallCreateRepository widgetsProject "" "" false],
     Exit "422 name already exists on this account").
Proof.
  exact (create_failure_is_fatal failingEnv (exampleFlags false)
    (widgetsArgs false) [CallGitDir; CallDefaultHost] widgetsProject
    "422 name already exists on this account" eq_refl I eq_refl eq_refl).
Defined.

(** X10. After a successful create call, the command goes on with the
    project parsed from the full name the API answers (not the requested
    one): with no [origin] remote, the queued [git remote add] and the shown
    URL are those of that project. *)
Theorem create_success_uses_api_name (env : Env) (fl : Flags) (args : Args)
  (t0 : list Event) (p : Project) (r : Repository) (e : string) :
  resolveProject env args = (t0, Return p) ->
  no_usable_record env p ->
  Noop args = false ->
  ghCreateRepository env p (flagCreateDescription fl) (flagCreateHomepage fl)
    (flagCreatePrivate fl) = Ok r ->
  LocalRepo env = Ok tt ->
  RemoteByName env "origin" = Err e ->
  create env fl args =
    (t0 ++ [CallRepository p;
            CallCreateRepository p (flagCreateDescription fl)
              (flagCreateHomepage fl) (flagCreatePrivate fl);
            CallLocalRepo; CallRemoteByName "origin";
            addOrigin (NewProject (ConfigFind env) (FullName r) "" (Host p))] ++
        surfaceURL fl (NewProject (ConfigFind env) (FullName r) "" (Host p)), Return tt)%list.
Proof.
  intros H0 Hn Hnoop Hc Hl Ho.
  assert (Hr : reconcile env fl args p =
    ([CallRepository p;
      CallCreateRepository p (flagCreateDescription fl)
        (flagCreateHomepage fl) (flagCreatePrivate fl)],
     Return (NewProject (ConfigFind env) (FullName r) "" (Host p)))).
  { rewrite (reconcile_no_usable env fl args p Hn).
    unfold createIfMissing, bind, call, ret. rewrite Hnoop, Hc. reflexivity. }
  assert (Hb : bindOrigin env fl (NewProject (ConfigFind env) (FullName r) "" (Host p)) =
    ([CallLocalRepo; CallRemoteByName "origin";
      addOrigin (NewProject (ConfigFind env) (FullName r) "" (Host p))] ++
     surfaceURL fl (NewProject (ConfigFind env) (FullName r) "" (Host p)), Return tt)%list).
  { exact (bindOrigin_no_origin env fl _ e Hl Ho). }
  unfold create. rewrite (bind_return_split _ _ _ _ H0).
  rewrite (bind_return_split _ _ _ _ Hr), Hb. simpl.
  reflexivity.
Qed.

Definition canonicalEnv : Env :=
  mkEnv (Ok ".git") (Ok "widgets") (fun s => s)
    (Ok (mkHostConfig "github.com" "me")) notFound
    (fun _ _ _ _ => Ok (mkRepository "MyOrg/Widgets" false))
    (Ok tt) (fun _ => Err "no such remote") exampleConfig.

Lemma create_success_uses_api_name_witness :
  create canonicalEnv (exampleFlags false) (widgetsArgs false) =
    ([CallGitDir; CallDefaultHost; CallRepository widgetsProject;
      CallCreateRepository widgetsProject "" "" false;
      CallLocalRepo; CallRemoteByName "origin";
      Before ["git"; "remote"; "add"; "-f"; "origin";
              "git@github.com:MyOrg/Widgets.git"];
      NoForward; BrowseOrCopy "https://github.com/MyOrg/Widgets" false false],
     Return tt).
Proof.
  exact (create_success_uses_api_name canonicalEnv (exampleFlags false)
    (widgetsArgs false) [CallGitDir; CallDefaultHost] widgetsProject
    (mkRepository "MyOrg/Widgets" false) "no such remote"
    eq_refl I eq_refl eq_refl eq_refl eq_refl).
Defined.

(** X11. A dry run still queues [git remote add -f origin <url>] for the
    desired project when there is no usable record and no [origin] remote:
    only the create call is skipped. *)
Theorem dry_run_still_queues_origin (env : Env) (fl : Flags) (args : Args)
  (t0 : list Event) (p : Project) (e : string) :
  resolveProject env args = (t0, Return p) ->
  no_usable_record env p ->
  Noop args = true ->
  LocalRepo env = Ok tt ->
  RemoteByName env "origin" = Err e ->
  create env fl args =
    (t0 ++ [CallRepository p; CallLocalRepo; CallRemoteByName "origin";
            addOrigin p] ++ surfaceURL fl p, Return tt)%list.
Proof.
  intros H0 Hn Hnoop Hl Ho.
  assert (Hr : reconcile env fl args p = ([CallRepository p], Return p)).
  { rewrite (reconcile_no_usable env fl args p Hn).
    unfold createIfMissing. rewrite Hnoop. reflexivity. }
  unfold create. rewrite (bind_return_split _ _ _ _ H0).
  rewrite (bind_return_split _ _ _ _ Hr).
  rewrite (bindOrigin_no_origin env fl p e Hl Ho). reflexivity.
Qed.

Lemma dry_run_still_queues_origin_witness :
  create (exampleEnv notFound (Err "no such remote")) (exampleFlags false)
    (widgetsArgs true) =
    ([CallGitDir; CallDefaultHost; CallRepository widgetsProject;
      CallLocalRepo; CallRemoteByName "origin";
      Before ["git"; "remote"; "add"; "-f"; "origin";
              "git@github.com:myorg/widgets.git"];
      NoForward; BrowseOrCopy "https://github.com/myorg/widgets" false false],
     Return tt).
Proof.
  exact (dry_run_still_queues_origin (exampleEnv notFound (Err "no such remote"))
    (exampleFlags false) (widgetsArgs true) [CallGitDir; CallDefaultHost]
    widgetsProject "no such remote" eq_refl I eq_refl eq_refl eq_refl).
Defined.
